(** * Shipping-method getters of the commercetools composables

    Source: packages/commercetools/composables/src/getters/checkoutShippingMethodGetters.ts

    The getters are TypeScript arrow functions over the platform's
    [ShippingMethod] objects.  Types are erased when the code runs, so the
    getters are embedded over untyped JavaScript values living in a heap of
    objects and arrays: a getter is a function from its argument to a
    computation that receives the heap and gives back a result (a value or a
    thrown [TypeError]) together with the heap it leaves behind.

    The values are those a decoded GraphQL response is made of, and
    [undefined]: primitives, plain objects with data properties, dense
    arrays.  Functions, symbols, accessors and proxies are not among
    them. *)

From Stdlib Require Import PrimFloat.
From stdpp Require Import gmap strings list pretty.

Open Scope string_scope.

(** ** Values, objects, heap *)

Definition loc := positive.

(** A JavaScript value.  Numbers are IEEE 754 binary64, as in the language;
    objects and arrays are held by reference. *)
Inductive value : Type :=
| VUndefined
| VNull
| VBool (b : bool)
| VNum (f : float)
| VStr (s : string)
| VRef (l : loc).

(** What a reference points to: a plain object (its own data properties, by
    name) or a dense array, the two shapes a decoded response is made of. *)
Inductive object : Type :=
| OObj (props : gmap string value)
| OArr (items : list value).

Abbreviation heap := (gmap loc object).

Inductive error : Type :=
| TypeError.

Inductive result (A : Type) : Type :=
| Return (a : A)
| Throw (e : error).
Arguments Return {A} a.
Arguments Throw {A} e.

(** ** Computations over the heap *)

Definition JS (A : Type) : Type := heap -> result A * heap.

Definition ret {A} (a : A) : JS A := fun h => (Return a, h).

Definition bind {A B} (m : JS A) (k : A -> JS B) : JS B :=
  fun h =>
    match m h with
    | (Return a, h') => k a h'
    | (Throw e, h') => (Throw e, h')
    end.

Notation "'let*' x ':=' m 'in' k" := (bind m (fun x => k))
  (at level 10, x name, m at level 100, k at level 200).

(** ** The language's operations used by the getters *)

(** [null] and [undefined]: the values a property cannot be read from. *)
Definition is_nullish (v : value) : bool :=
  match v with
  | VUndefined | VNull => true
  | _ => false
  end.

(** ToBoolean, the test behind [!x]. *)
Definition ToBoolean (v : value) : bool :=
  match v with
  | VUndefined | VNull => false
  | VBool b => b
  | VNum f => negb (is_zero f || is_nan f)
  | VStr s => negb (String.eqb s "")
  | VRef _ => true
  end.

(** The value of the property [name] of a value that is neither [null] nor
    [undefined].  The getters read the names [id], [name], [description],
    [zoneRates], [shippingRates], [price] and [centAmount]; arrays, strings,
    numbers and booleans carry none of them, nor do the standard prototypes,
    so only a plain object can answer with something else than
    [undefined].  A reference the heap does not hold does not arise in a run
    and reads as an object without properties. *)
Definition own_field (h : heap) (v : value) (name : string) : value :=
  match v with
  | VRef l =>
      match h !! l with
      | Some (OObj props) => default VUndefined (props !! name)
      | _ => VUndefined
      end
  | _ => VUndefined
  end.

(** The one-character string at position [n] of [s], if any.  A string is
    taken to hold characters of one byte, for which the position counted here
    is the position the language counts. *)
Fixpoint char_at (s : string) (n : nat) : option string :=
  match s, n with
  | EmptyString, _ => None
  | String c _, O => Some (String c EmptyString)
  | String _ s', S n' => char_at s' n'
  end.

(** The value of the element [n] ([v[n]] with a numeric literal): an array
    answers with its element, a plain object with its property named by the
    decimal numeral, a string with its character. *)
Definition own_index (h : heap) (v : value) (n : nat) : value :=
  match v with
  | VRef l =>
      match h !! l with
      | Some (OObj props) => default VUndefined (props !! pretty n)
      | Some (OArr items) => default VUndefined (items !! n)
      | None => VUndefined
      end
  | VStr s => from_option VStr VUndefined (char_at s n)
  | _ => VUndefined
  end.

(** [v.name]: a [TypeError] on [null] and [undefined], a read otherwise. *)
Definition get_field (v : value) (name : string) : JS value :=
  fun h =>
    if is_nullish v then (Throw TypeError, h)
    else (Return (own_field h v name), h).

(** [v?.name]: [undefined] on [null] and [undefined], a read otherwise. *)
Definition get_field_opt (v : value) (name : string) : JS value :=
  fun h =>
    if is_nullish v then (Return VUndefined, h)
    else get_field v name h.

(** [v[n]]. *)
Definition get_index (v : value) (n : nat) : JS value :=
  fun h =>
    if is_nullish v then (Throw TypeError, h)
    else (Return (own_index h v n), h).

Section Runtime.

(** ToNumber on a string parses a numeric literal, and on an object goes
    through the object's conversion to a primitive, which throws a
    [TypeError] when the object has no usable [valueOf] or [toString] (as
    [{ toString: null, valueOf: null }]).  Neither is code of this
    repository: both are taken as given, for every choice of them. *)
Variable StringToNumber : string -> float.
Variable ObjectToNumber : heap -> loc -> result float.

Definition ToNumber (h : heap) (v : value) : result float :=
  match v with
  | VUndefined => Return nan
  | VNull => Return zero
  | VBool true => Return one
  | VBool false => Return zero
  | VNum f => Return f
  | VStr s => Return (StringToNumber s)
  | VRef l => ObjectToNumber h l
  end.

(** [a / b]: the left operand to a number, then the right one, then the
    binary64 quotient; a conversion that throws ends the division. *)
Definition js_div (a b : value) : JS value :=
  fun h =>
    match ToNumber h a with
    | Throw e => (Throw e, h)
    | Return x =>
        match ToNumber h b with
        | Throw e => (Throw e, h)
        | Return y => (Return (VNum (x / y)), h)
        end
    end.

(** ** The getters, in the order of the source file *)

(** [(methods: ShippingMethod[]) => methods] *)
Definition getShippingMethods (methods : value) : JS value :=
  ret methods.

(** [(method: ShippingMethod) => method?.id] *)
Definition getMethodId (method : value) : JS value :=
  get_field_opt method "id".

(** [(method: ShippingMethod) => method.name] *)
Definition getMethodName (method : value) : JS value :=
  get_field method "name".

(** [(method: ShippingMethod) => method.description] *)
Definition getMethodDescription (method : value) : JS value :=
  get_field method "description".

(** [if (!method || !method.zoneRates) { return null; }
     return method.zoneRates[0].shippingRates[0].price.centAmount / 100;] *)
Definition getMethodPrice (method : value) : JS value :=
  if negb (ToBoolean method) then ret VNull
  else
    let* guarded := get_field method "zoneRates" in
    if negb (ToBoolean guarded) then ret VNull
    else
      let* zoneRates := get_field method "zoneRates" in
      let* zoneRate := get_index zoneRates 0 in
      let* shippingRates := get_field zoneRate "shippingRates" in
      let* shippingRate := get_index shippingRates 0 in
      let* price := get_field shippingRate "price" in
      let* centAmount := get_field price "centAmount" in
      js_div centAmount (VNum 100).

(** [(method: ShippingMethod) => false] *)
Definition isMethodDefault (method : value) : JS value :=
  ret (VBool false).

(** The exported object [checkoutShippingMethodGetters]: the six getters
    under their names. *)
Definition checkoutShippingMethodGetters : list (string * (value -> JS value)) :=
  [ ("getShippingMethods", getShippingMethods);
    ("getMethodId", getMethodId);
    ("getMethodName", getMethodName);
    ("getMethodDescription", getMethodDescription);
    ("getMethodPrice", getMethodPrice);
    ("isMethodDefault", isMethodDefault) ].

End Runtime.

(** ** Shapes of the heap the statements speak about *)

(** [v] is a plain object whose property [name] holds [w]. *)
Definition field_is (h : heap) (v : value) (name : string) (w : value) : Prop :=
  exists l props, v = VRef l /\ h !! l = Some (OObj props) /\ props !! name = Some w.

(** [v] is a plain object without a property [name]. *)
Definition field_missing (h : heap) (v : value) (name : string) : Prop :=
  exists l props, v = VRef l /\ h !! l = Some (OObj props) /\ props !! name = None.

(** [v] is a non-empty array whose first element is [w]. *)
Definition first_is (h : heap) (v : value) (w : value) : Prop :=
  exists l items, v = VRef l /\ h !! l = Some (OArr (w :: items)).

(** [v] is the empty array. *)
Definition empty_array (h : heap) (v : value) : Prop :=
  exists l, v = VRef l /\ h !! l = Some (OArr []).

(** A well-formed shipping method with the price [c] in cents: its
    [zoneRates] list is non-empty, the first zone rate has a non-empty
    [shippingRates] list, and the first shipping rate has
    [price.centAmount] equal to the number [c]. *)
Definition well_formed_method (h : heap) (method : value) (c : float) : Prop :=
  exists zoneRates zoneRate shippingRates shippingRate price,
    field_is h method "zoneRates" zoneRates /\
    first_is h zoneRates zoneRate /\
    field_is h zoneRate "shippingRates" shippingRates /\
    first_is h shippingRates shippingRate /\
    field_is h shippingRate "price" price /\
    field_is h price "centAmount" (VNum c).

(** The guard of [getMethodPrice]: [!method || !method.zoneRates]. *)
Definition price_guard (h : heap) (method : value) : bool :=
  negb (ToBoolean method) || negb (ToBoolean (own_field h method "zoneRates")).

Definition is_number (v : value) : bool :=
  match v with
  | VNum _ => true
  | _ => false
  end.

(** A value that is not a reference to an object or an array. *)
Definition is_primitive (v : value) : bool :=
  match v with
  | VRef _ => false
  | _ => true
  end.

(** A result that is a thrown exception or the value [undefined]. *)
Definition throws_or_undefined (r : result value) : bool :=
  match r with
  | Throw _ => true
  | Return VUndefined => true
  | Return _ => false
  end.

(** The locations a value gives access to: the object it refers to, and on
    through the properties and elements of that object. *)
Inductive reach (h : heap) : value -> loc -> Prop :=
| reach_ref l : reach h (VRef l) l
| reach_field l props name w l' :
    h !! l = Some (OObj props) -> props !! name = Some w ->
    reach h w l' -> reach h (VRef l) l'
| reach_item l items n w l' :
    h !! l = Some (OArr items) -> items !! n = Some w ->
    reach h w l' -> reach h (VRef l) l'.

(** Two heaps that hold the same objects wherever [v] gives access. *)
Definition agree_on (h1 h2 : heap) (v : value) : Prop :=
  forall l, reach h1 v l -> h1 !! l = h2 !! l.

(** Run in either heap, a computation gives the same result. *)
Definition same_result {A} (h1 h2 : heap) (m : JS A) : Prop :=
  (m h1).1 = (m h2).1.

(** A computation that hands the heap back as it received it. *)
Definition read_only {A} (m : JS A) : Prop :=
  forall h, (m h).2 = h.

(** ** The path [getMethodPrice] follows *)

(** [method.zoneRates[0]], [.shippingRates], [[0]] and [.price], each as the
    heap answers when the step before is there to be read. *)
Definition first_zoneRate (h : heap) (method : value) : value :=
  own_index h (own_field h method "zoneRates") 0.

Definition first_shippingRates (h : heap) (method : value) : value :=
  own_field h (first_zoneRate h method) "shippingRates".

Definition first_shippingRate (h : heap) (method : value) : value :=
  own_index h (first_shippingRates h method) 0.

Definition first_price (h : heap) (method : value) : value :=
  own_field h (first_shippingRate h method) "price".

(** One of the four objects on the way to [centAmount] is [null] or
    [undefined]. *)
Definition path_broken (h : heap) (method : value) : bool :=
  is_nullish (first_zoneRate h method) ||
  is_nullish (first_shippingRates h method) ||
  is_nullish (first_shippingRate h method) ||
  is_nullish (first_price h method).

(** Two heaps that differ at most in what their arrays hold after the first
    element. *)
Definition same_heads (h1 h2 : heap) : Prop :=
  forall l,
    match h1 !! l, h2 !! l with
    | Some (OArr xs), Some (OArr ys) => head xs = head ys
    | o1, o2 => o1 = o2
    end.

(** ** The cart getters of the integration guide

    Source: packages/core/docs/integrate/integration-guide.md, section 3
    (Getters).  They read the names [results], [lineItems], [price],
    [amount], [discounted], [masterVariant], [name] and [quantity], which
    again only a plain object can carry. *)

(** A new object, at a location the heap does not hold yet.  An object
    literal is embedded as the evaluation of its property values, in order,
    followed by this: the object the language creates before evaluating them
    cannot be seen before it is complete, nor if the evaluation throws. *)
Definition alloc (o : object) : JS value :=
  fun h => let l := fresh (dom h) in (Return (VRef l), <[l := o]> h).

(** [(cartResponse) => cartResponse.results.lineItems] *)
Definition getItems (cartResponse : value) : JS value :=
  let* results := get_field cartResponse "results" in
  get_field results "lineItems".

(** [(lineItem: LineItem): AgnosticPrice => ({
       regular: lineItem.price.amount,
       special: lineItem.price.discounted ? lineItem.price.discounted : 0
     })] *)
Definition getItemPrice (lineItem : value) : JS value :=
  let* price := get_field lineItem "price" in
  let* regular := get_field price "amount" in
  let* tested_price := get_field lineItem "price" in
  let* tested := get_field tested_price "discounted" in
  let* special :=
    (if ToBoolean tested
     then let* discounted_price := get_field lineItem "price" in
          get_field discounted_price "discounted"
     else ret (VNum 0)) in
  alloc (OObj {[ "regular" := regular; "special" := special ]}).

(** [(lineItem: LineItem): string => lineItem.masterVariant.name] *)
Definition getItemName (lineItem : value) : JS value :=
  let* masterVariant := get_field lineItem "masterVariant" in
  get_field masterVariant "name".

(** [(lineItem: LineItem): number => lineItem.quantity] *)
Definition getItemQty (lineItem : value) : JS value :=
  get_field lineItem "quantity".

(** [v] is an array whose element [i] is [w]. *)
Definition item_is (h : heap) (v : value) (i : nat) (w : value) : Prop :=
  exists l items, v = VRef l /\ h !! l = Some (OArr items) /\ items !! i = Some w.

(** ** Data for the examples *)

(** The examples hold a number wherever a number is read, so that the
    conversions of strings and objects never run in them; they are given a
    runtime all the same. *)
Definition nan_of_string : string -> float := fun _ => nan.
Definition nan_of_object : heap -> loc -> result float := fun _ _ => Return nan.

(** [{ id: 'm1', name: 'Standard', description: 'Slow',
       zoneRates: [{ shippingRates: [{ price: { centAmount: 1000 } }] }] }]
    at location 1. *)
Definition standard_heap : heap :=
  {[ 1%positive := OObj {[ "id" := VStr "m1"; "name" := VStr "Standard";
                           "description" := VStr "Slow";
                           "zoneRates" := VRef 2%positive ]};
     2%positive := OArr [VRef 3%positive];
     3%positive := OObj {[ "shippingRates" := VRef 4%positive ]};
     4%positive := OArr [VRef 5%positive];
     5%positive := OObj {[ "price" := VRef 6%positive ]};
     6%positive := OObj {[ "centAmount" := VNum 1000 ]} ]}.

(** [{ zoneRates: [] }] at location 1. *)
Definition no_zone_heap : heap :=
  {[ 1%positive := OObj {[ "zoneRates" := VRef 2%positive ]};
     2%positive := OArr [] ]}.

(** [{ zoneRates: [{ shippingRates: [] }] }] at location 1. *)
Definition no_rate_heap : heap :=
  {[ 1%positive := OObj {[ "zoneRates" := VRef 2%positive ]};
     2%positive := OArr [VRef 3%positive];
     3%positive := OObj {[ "shippingRates" := VRef 4%positive ]};
     4%positive := OArr [] ]}.

(** [[{ id: 'm1', name: 'Standard' }]] at location 1: a list of one
    method. *)
Definition methods_heap : heap :=
  {[ 1%positive := OArr [VRef 2%positive];
     2%positive := OObj {[ "id" := VStr "m1"; "name" := VStr "Standard" ]} ]}.

(** [{ id: 'm2' }] at location 1: a method without [zoneRates]. *)
Definition bare_heap : heap :=
  {[ 1%positive := OObj {[ "id" := VStr "m2" ]} ]}.

(** The standard method with a second zone rate and a second shipping
    rate behind the first ones. *)
Definition two_rates_heap : heap :=
  <[2%positive := OArr [VRef 3%positive; VRef 9%positive]]>
    (<[4%positive := OArr [VRef 5%positive; VNull]]> standard_heap).

(** [{ zoneRates: [{ shippingRates: [{ price: {} }] }] }] at location 1: a
    price without [centAmount]. *)
Definition no_amount_heap : heap :=
  {[ 1%positive := OObj {[ "zoneRates" := VRef 2%positive ]};
     2%positive := OArr [VRef 3%positive];
     3%positive := OObj {[ "shippingRates" := VRef 4%positive ]};
     4%positive := OArr [VRef 5%positive];
     5%positive := OObj {[ "price" := VRef 6%positive ]};
     6%positive := OObj ∅ ]}.

(** [{ results: { lineItems: [
         { price: { amount: 1000 }, masterVariant: { name: 'Shirt' }, quantity: 2 },
         { price: { amount: 1000, discounted: 800 }, quantity: 1 } ] } }]
    at location 1. *)
Definition cart_heap : heap :=
  {[ 1%positive := OObj {[ "results" := VRef 2%positive ]};
     2%positive := OObj {[ "lineItems" := VRef 3%positive ]};
     3%positive := OArr [VRef 4%positive; VRef 7%positive];
     4%positive := OObj {[ "price" := VRef 5%positive;
                           "masterVariant" := VRef 6%positive;
                           "quantity" := VNum 2 ]};
     5%positive := OObj {[ "amount" := VNum 1000 ]};
     6%positive := OObj {[ "name" := VStr "Shirt" ]};
     7%positive := OObj {[ "price" := VRef 8%positive; "quantity" := VNum 1 ]};
     8%positive := OObj {[ "amount" := VNum 1000; "discounted" := VNum 800 ]} ]}.

(** * Properties *)

(** ** The heap is handed back unchanged *)

Lemma read_only_ret {A} (a : A) : read_only (ret a).
Proof. by intros h. Qed.

Lemma read_only_bind {A B} (m : JS A) (k : A -> JS B) :
  read_only m -> (forall a, read_only (k a)) -> read_only (bind m k).
Proof.
  intros Hm Hk h. unfold bind.
  specialize (Hm h). destruct (m h) as [[a|e] h']; simpl in Hm; subst h'.
  - apply Hk.
  - done.
Qed.

Lemma read_only_get_field v name : read_only (get_field v name).
Proof. intros h. unfold get_field. by destruct (is_nullish v). Qed.

Lemma read_only_get_field_opt v name : read_only (get_field_opt v name).
Proof. intros h. unfold get_field_opt, get_field. by destruct (is_nullish v). Qed.

Lemma read_only_get_index v n : read_only (get_index v n).
Proof. intros h. unfold get_index. by destruct (is_nullish v). Qed.

Lemma read_only_js_div S O a b : read_only (js_div S O a b).
Proof.
  intros h. unfold js_div.
  destruct (ToNumber S O h a); [destruct (ToNumber S O h b)|]; done.
Qed.

Create HintDb read_only.
#[local] Hint Resolve read_only_ret read_only_get_field read_only_get_field_opt
  read_only_get_index read_only_js_div : read_only.

Lemma read_only_getMethodPrice S O method : read_only (getMethodPrice S O method).
Proof.
  unfold getMethodPrice.
  destruct (negb (ToBoolean method)); [apply read_only_ret|].
  apply read_only_bind; [auto with read_only|]. intros guarded.
  destruct (negb (ToBoolean guarded)); [apply read_only_ret|].
  repeat (apply read_only_bind; [auto with read_only|]; intros ?).
  auto with read_only.
Qed.

(** Membership in the exported object, getter by getter. *)
Lemma getters_cases S O name (g : value -> JS value) :
  (name, g) ∈ checkoutShippingMethodGetters S O ->
  g = getShippingMethods \/ g = getMethodId \/ g = getMethodName \/
  g = getMethodDescription \/ g = getMethodPrice S O \/ g = isMethodDefault.
Proof.
  unfold checkoutShippingMethodGetters. intros H.
  repeat (apply elem_of_cons in H as [H|H]; [inversion H; subst; tauto|]).
  by apply elem_of_nil in H.
Qed.

Lemma getters_read_only S O name (g : value -> JS value) input :
  (name, g) ∈ checkoutShippingMethodGetters S O -> read_only (g input).
Proof.
  intros H. apply getters_cases in H.
  destruct H as [-> | [-> | [-> | [-> | [-> | ->]]]]].
  - apply read_only_ret.
  - apply read_only_get_field_opt.
  - apply read_only_get_field.
  - apply read_only_get_field.
  - apply read_only_getMethodPrice.
  - apply read_only_ret.
Qed.

(** ** Running a computation step by step *)

Lemma bind_Return {A B} (m : JS A) (k : A -> JS B) h a h' :
  m h = (Return a, h') -> bind m k h = k a h'.
Proof. intros H. unfold bind. by rewrite H. Qed.

Lemma bind_Throw {A B} (m : JS A) (k : A -> JS B) h e h' :
  m h = (Throw e, h') -> bind m k h = (Throw e, h').
Proof. intros H. unfold bind. by rewrite H. Qed.

Lemma bind_Return_inv {A B} (m : JS A) (k : A -> JS B) h b :
  (bind m k h).1 = Return b ->
  exists a h', m h = (Return a, h') /\ (k a h').1 = Return b.
Proof.
  unfold bind. destruct (m h) as [[a|e] h'] eqn:E; simpl; intros H.
  - by exists a, h'.
  - discriminate.
Qed.

Lemma truthy_not_nullish v : ToBoolean v = true -> is_nullish v = false.
Proof. by destruct v. Qed.

Lemma get_field_nullish v name h :
  is_nullish v = true -> get_field v name h = (Throw TypeError, h).
Proof. intros H. unfold get_field. by rewrite H. Qed.

Lemma get_field_object h l props name :
  h !! l = Some (OObj props) ->
  get_field (VRef l) name h = (Return (default VUndefined (props !! name)), h).
Proof. intros H. unfold get_field. simpl. by rewrite H. Qed.

Lemma get_field_is h v name w :
  field_is h v name w -> get_field v name h = (Return w, h).
Proof.
  intros (l & props & -> & Hl & Hp).
  rewrite (get_field_object _ _ _ _ Hl). by rewrite Hp.
Qed.

Lemma get_field_missing h v name :
  field_missing h v name -> get_field v name h = (Return VUndefined, h).
Proof.
  intros (l & props & -> & Hl & Hp).
  rewrite (get_field_object _ _ _ _ Hl). by rewrite Hp.
Qed.

Lemma get_index_first h v w :
  first_is h v w -> get_index v 0 h = (Return w, h).
Proof.
  intros (l & items & -> & Hl). unfold get_index. simpl. by rewrite Hl.
Qed.

Lemma get_index_empty h v n :
  empty_array h v -> get_index v n h = (Return VUndefined, h).
Proof.
  intros (l & -> & Hl). unfold get_index. simpl. by rewrite Hl.
Qed.

Lemma field_is_truthy h v name w : field_is h v name w -> ToBoolean v = true.
Proof. by intros (l & props & -> & _). Qed.

Lemma field_missing_truthy h v name : field_missing h v name -> ToBoolean v = true.
Proof. by intros (l & props & -> & _). Qed.

Lemma first_is_truthy h v w : first_is h v w -> ToBoolean v = true.
Proof. by intros (l & items & -> & _). Qed.

Lemma empty_array_truthy h v : empty_array h v -> ToBoolean v = true.
Proof. by intros (l & -> & _). Qed.

(** The guard lets a method through when the method and its [zoneRates]
    are both truthy, and the path is then read from the start. *)
Lemma getMethodPrice_guard_passed S O method zoneRates h :
  ToBoolean method = true ->
  get_field method "zoneRates" h = (Return zoneRates, h) ->
  ToBoolean zoneRates = true ->
  getMethodPrice S O method h =
    (let* zoneRate := get_index zoneRates 0 in
     let* shippingRates := get_field zoneRate "shippingRates" in
     let* shippingRate := get_index shippingRates 0 in
     let* price := get_field shippingRate "price" in
     let* centAmount := get_field price "centAmount" in
     js_div S O centAmount (VNum 100)) h.
Proof.
  intros Hm Hz Ht. unfold getMethodPrice. rewrite Hm. simpl.
  rewrite (bind_Return _ _ _ _ _ Hz). rewrite Ht. simpl.
  by rewrite (bind_Return _ _ _ _ _ Hz).
Qed.

Lemma getMethodPrice_falsy S O method h :
  ToBoolean method = false -> getMethodPrice S O method h = (Return VNull, h).
Proof. intros H. unfold getMethodPrice. by rewrite H. Qed.

Lemma getMethodPrice_falsy_zoneRates S O method zoneRates h :
  ToBoolean method = true ->
  get_field method "zoneRates" h = (Return zoneRates, h) ->
  ToBoolean zoneRates = false ->
  getMethodPrice S O method h = (Return VNull, h).
Proof.
  intros Hm Hz Ht. unfold getMethodPrice. rewrite Hm. simpl.
  rewrite (bind_Return _ _ _ _ _ Hz). by rewrite Ht.
Qed.

(** ** The getters one by one *)

(** C9: [getShippingMethods] is the identity on lists of shipping methods:
    whatever it is given (in any heap) it returns exactly that, the same
    reference to the same list, with nothing normalized, filtered or
    reordered, and the heap as it was. *)
Theorem getShippingMethods_identity (methods : value) (h : heap) :
  getShippingMethods methods h = (Return methods, h).
Proof. reflexivity. Qed.

(** C8: [isMethodDefault] returns [false] for every shipping method and
    ignores its argument: no input is reported as the default method. *)
Theorem isMethodDefault_false (method : value) (h : heap) :
  isMethodDefault method h = (Return (VBool false), h).
Proof. reflexivity. Qed.

(** C6: for a method that is an object, [getMethodId] returns its [id]
    field, [getMethodName] its [name] field and [getMethodDescription] its
    [description] field (reading a field the object lacks gives
    [undefined]); on [null] and on [undefined], [getMethodId] returns
    [undefined] and does not fail. *)
Theorem getMethod_fields (h : heap) (l : loc) (props : gmap string value)
    (Hl : h !! l = Some (OObj props)) :
  getMethodId (VRef l) h = (Return (default VUndefined (props !! "id")), h) /\
  getMethodName (VRef l) h = (Return (default VUndefined (props !! "name")), h) /\
  getMethodDescription (VRef l) h =
    (Return (default VUndefined (props !! "description")), h) /\
  getMethodId VNull h = (Return VUndefined, h) /\
  getMethodId VUndefined h = (Return VUndefined, h).
Proof.
  unfold getMethodId, getMethodName, getMethodDescription, get_field_opt.
  simpl. rewrite !(get_field_object _ _ _ _ Hl). done.
Qed.

Lemma getMethod_fields_witness :
  getMethodId (VRef 1%positive) standard_heap = (Return (VStr "m1"), standard_heap) /\
  getMethodName (VRef 1%positive) standard_heap = (Return (VStr "Standard"), standard_heap) /\
  getMethodDescription (VRef 1%positive) standard_heap = (Return (VStr "Slow"), standard_heap) /\
  getMethodId VNull standard_heap = (Return VUndefined, standard_heap) /\
  getMethodId VUndefined standard_heap = (Return VUndefined, standard_heap).
Proof.
  exact (getMethod_fields standard_heap 1%positive
           {[ "id" := VStr "m1"; "name" := VStr "Standard";
              "description" := VStr "Slow"; "zoneRates" := VRef 2%positive ]}
           eq_refl).
Defined.

(** C2: for every well-formed shipping method (a non-empty [zoneRates]
    list, a non-empty [shippingRates] list in the first zone rate, and
    [price.centAmount] equal to [c] in the first shipping rate),
    [getMethodPrice] returns exactly [c / 100]. *)
Theorem getMethodPrice_well_formed S O (h : heap) (method : value) (c : float)
    (Hwf : well_formed_method h method c) :
  getMethodPrice S O method h = (Return (VNum (c / 100)), h).
Proof.
  destruct Hwf as (zoneRates & zoneRate & shippingRates & shippingRate & price
                   & Hzs & Hz & Hss & Hs & Hp & Hc).
  rewrite (getMethodPrice_guard_passed S O method zoneRates h).
  - rewrite (bind_Return _ _ _ _ _ (get_index_first _ _ _ Hz)).
    rewrite (bind_Return _ _ _ _ _ (get_field_is _ _ _ _ Hss)).
    rewrite (bind_Return _ _ _ _ _ (get_index_first _ _ _ Hs)).
    rewrite (bind_Return _ _ _ _ _ (get_field_is _ _ _ _ Hp)).
    rewrite (bind_Return _ _ _ _ _ (get_field_is _ _ _ _ Hc)).
    reflexivity.
  - by eapply field_is_truthy.
  - by apply get_field_is.
  - by eapply first_is_truthy.
Qed.

Lemma standard_well_formed :
  well_formed_method standard_heap (VRef 1%positive) 1000.
Proof.
  exists (VRef 2%positive), (VRef 3%positive), (VRef 4%positive),
         (VRef 5%positive), (VRef 6%positive).
  unfold field_is, first_is. repeat split; eauto 10.
Defined.

(** A cent amount of 1000 yields 10. *)
Lemma getMethodPrice_well_formed_witness :
  well_formed_method standard_heap (VRef 1%positive) 1000 /\
  getMethodPrice nan_of_string nan_of_object (VRef 1%positive) standard_heap =
    (Return (VNum 10), standard_heap).
Proof.
  split.
  - exact standard_well_formed.
  - exact (getMethodPrice_well_formed nan_of_string nan_of_object standard_heap
             (VRef 1%positive) 1000 standard_well_formed).
Defined.

(** C7: the guard of [getMethodPrice] does not make it total.  A method
    whose [zoneRates] is an empty list, or whose first zone rate has an empty
    [shippingRates] list, passes the guard (the method and its [zoneRates]
    are truthy) and the access that follows throws a [TypeError]. *)
Theorem getMethodPrice_guard_not_total S O (h : heap) (method zoneRates : value)
    (Hzs : field_is h method "zoneRates" zoneRates)
    (Hempty : empty_array h zoneRates \/
              exists zoneRate shippingRates,
                first_is h zoneRates zoneRate /\
                field_is h zoneRate "shippingRates" shippingRates /\
                empty_array h shippingRates) :
  price_guard h method = false /\
  getMethodPrice S O method h = (Throw TypeError, h).
Proof.
  assert (Hread := get_field_is _ _ _ _ Hzs).
  assert (Hm := field_is_truthy _ _ _ _ Hzs).
  assert (Ht : ToBoolean zoneRates = true).
  { destruct Hempty as [He | (zoneRate & shippingRates & Hz & _)].
    - by eapply empty_array_truthy.
    - by eapply first_is_truthy. }
  split.
  - unfold price_guard. rewrite Hm. simpl.
    unfold get_field in Hread. rewrite (truthy_not_nullish _ Hm) in Hread.
    injection Hread as ->. by rewrite Ht.
  - rewrite (getMethodPrice_guard_passed S O method zoneRates h Hm Hread Ht).
    destruct Hempty as [He | (zoneRate & shippingRates & Hz & Hss & He)].
    + rewrite (bind_Return _ _ _ _ _ (get_index_empty _ _ 0 He)).
      by rewrite (bind_Throw _ _ _ _ _ (get_field_nullish VUndefined _ h eq_refl)).
    + rewrite (bind_Return _ _ _ _ _ (get_index_first _ _ _ Hz)).
      rewrite (bind_Return _ _ _ _ _ (get_field_is _ _ _ _ Hss)).
      rewrite (bind_Return _ _ _ _ _ (get_index_empty _ _ 0 He)).
      by rewrite (bind_Throw _ _ _ _ _ (get_field_nullish VUndefined _ h eq_refl)).
Qed.

Lemma getMethodPrice_guard_not_total_witness :
  (price_guard no_zone_heap (VRef 1%positive) = false /\
   getMethodPrice nan_of_string nan_of_object (VRef 1%positive) no_zone_heap =
     (Throw TypeError, no_zone_heap)) /\
  (price_guard no_rate_heap (VRef 1%positive) = false /\
   getMethodPrice nan_of_string nan_of_object (VRef 1%positive) no_rate_heap =
     (Throw TypeError, no_rate_heap)).
Proof.
  split.
  - apply (getMethodPrice_guard_not_total nan_of_string nan_of_object
             no_zone_heap (VRef 1%positive) (VRef 2%positive)).
    + unfold field_is. by eexists _, _.
    + left. unfold empty_array. by eexists.
  - apply (getMethodPrice_guard_not_total nan_of_string nan_of_object
             no_rate_heap (VRef 1%positive) (VRef 2%positive)).
    + unfold field_is. by eexists _, _.
    + right. exists (VRef 3%positive), (VRef 4%positive).
      unfold first_is, field_is, empty_array.
      split; [by eexists _, _ | split; [by eexists _, _ | by eexists]].
Defined.

(** ** What [getMethodPrice] can return *)

(** Whenever [getMethodPrice] returns, it returns [null] if its guard
    [!method || !method.zoneRates] holds and a number otherwise. *)
Lemma getMethodPrice_returns S O (method : value) (h : heap) (v : value) :
  (getMethodPrice S O method h).1 = Return v ->
  if price_guard h method then v = VNull else is_number v = true.
Proof.
  intros Hret. unfold price_guard.
  destruct (ToBoolean method) eqn:Hm; simpl.
  - assert (Hz : get_field method "zoneRates" h =
                 (Return (own_field h method "zoneRates"), h)).
    { unfold get_field. by rewrite (truthy_not_nullish _ Hm). }
    destruct (ToBoolean (own_field h method "zoneRates")) eqn:Ht; simpl.
    + rewrite (getMethodPrice_guard_passed S O _ _ _ Hm Hz Ht) in Hret.
      repeat (apply bind_Return_inv in Hret as (? & ? & _ & Hret)).
      unfold js_div in Hret.
      match type of Hret with context [ToNumber S O ?h0 ?c] =>
        destruct (ToNumber S O h0 c) end; simpl in Hret; [|discriminate].
      by injection Hret as <-.
    + rewrite (getMethodPrice_falsy_zoneRates S O _ _ _ Hm Hz Ht) in Hret.
      simpl in Hret. by injection Hret as <-.
  - rewrite (getMethodPrice_falsy S O _ _ Hm) in Hret.
    simpl in Hret. by injection Hret as <-.
Qed.

(** ** Missing input *)

(** On [null], [getMethodPrice] neither throws nor returns [undefined]: its
    guard puts [null] in the place of the missing price. *)
Lemma getMethodPrice_null_substitutes :
  (getMethodPrice nan_of_string nan_of_object VNull ∅).1 = Return VNull /\
  throws_or_undefined (getMethodPrice nan_of_string nan_of_object VNull ∅).1 = false.
Proof. by split. Qed.

(** C1, amended: the getters handle no error, except for the guard of
    [getMethodPrice].  On a [null] or [undefined] method, [getMethodName] and
    [getMethodDescription] throw, [getMethodId] gives [undefined],
    [getShippingMethods] gives its input back, [isMethodDefault] gives
    [false], and [getMethodPrice] returns [null].  On a method object that
    lacks the field read, [getMethodId], [getMethodName] and
    [getMethodDescription] give [undefined], and [getMethodPrice] returns
    [null] when it is [zoneRates] that is missing. *)
Theorem getters_missing_input S O (method : value) (h : heap) :
  (is_nullish method = true ->
     getShippingMethods method h = (Return method, h) /\
     getMethodId method h = (Return VUndefined, h) /\
     getMethodName method h = (Throw TypeError, h) /\
     getMethodDescription method h = (Throw TypeError, h) /\
     getMethodPrice S O method h = (Return VNull, h) /\
     isMethodDefault method h = (Return (VBool false), h)) /\
  (field_missing h method "id" ->
     getMethodId method h = (Return VUndefined, h)) /\
  (field_missing h method "name" ->
     getMethodName method h = (Return VUndefined, h)) /\
  (field_missing h method "description" ->
     getMethodDescription method h = (Return VUndefined, h)) /\
  (field_missing h method "zoneRates" ->
     getMethodPrice S O method h = (Return VNull, h)).
Proof.
  split; [intros H; repeat split | repeat split].
  - unfold getMethodId, get_field_opt. by rewrite H.
  - by apply get_field_nullish.
  - by apply get_field_nullish.
  - apply getMethodPrice_falsy. by destruct method.
  - intros H. unfold getMethodId, get_field_opt.
    rewrite (truthy_not_nullish _ (field_missing_truthy _ _ _ H)).
    by apply get_field_missing.
  - intros H. by apply get_field_missing.
  - intros H. by apply get_field_missing.
  - intros H.
    apply (getMethodPrice_falsy_zoneRates S O method VUndefined h).
    + by eapply field_missing_truthy.
    + by apply get_field_missing.
    + done.
Qed.

Lemma getters_missing_input_witness :
  (getMethodName VNull ∅ = (Throw TypeError, ∅) /\
   getMethodId VUndefined ∅ = (Return VUndefined, ∅) /\
   getMethodPrice nan_of_string nan_of_object VNull ∅ = (Return VNull, ∅)) /\
  (getMethodName (VRef 1%positive) bare_heap = (Return VUndefined, bare_heap) /\
   getMethodPrice nan_of_string nan_of_object (VRef 1%positive) bare_heap =
     (Return VNull, bare_heap)).
Proof.
  pose proof (getters_missing_input nan_of_string nan_of_object VNull ∅) as Hnull.
  pose proof (getters_missing_input nan_of_string nan_of_object VUndefined ∅) as Hundef.
  pose proof (getters_missing_input nan_of_string nan_of_object
                (VRef 1%positive) bare_heap) as Hbare.
  destruct Hnull as [Hnull _]. specialize (Hnull eq_refl).
  destruct Hundef as [Hundef _]. specialize (Hundef eq_refl).
  destruct Hbare as (_ & _ & Hname & _ & Hprice).
  assert (Hn : field_missing bare_heap (VRef 1%positive) "name")
    by (by eexists _, _).
  assert (Hz : field_missing bare_heap (VRef 1%positive) "zoneRates")
    by (by eexists _, _).
  split.
  - split; [apply Hnull|]. split; [apply Hundef | apply Hnull].
  - split; [exact (Hname Hn) | exact (Hprice Hz)].
Defined.

(** ** Reads stay within the argument *)

Lemma reach_is_ref h v l : reach h v l -> exists l0, v = VRef l0.
Proof. intros H. destruct H; eauto. Qed.

Lemma agree_on_refl h v : agree_on h h v.
Proof. by intros l _. Qed.

Lemma agree_on_not_ref h1 h2 v :
  (forall l, v <> VRef l) -> agree_on h1 h2 v.
Proof.
  intros Hv l Hr. apply reach_is_ref in Hr as [l0 ->]. by destruct (Hv l0).
Qed.

Lemma own_field_agree h1 h2 v name :
  agree_on h1 h2 v -> own_field h2 v name = own_field h1 v name.
Proof.
  intros H. destruct v as [| | | | |l]; try done.
  simpl. by rewrite (H l (reach_ref h1 l)).
Qed.

Lemma own_index_agree h1 h2 v n :
  agree_on h1 h2 v -> own_index h2 v n = own_index h1 v n.
Proof.
  intros H. destruct v as [| | | | |l]; try done.
  simpl. by rewrite (H l (reach_ref h1 l)).
Qed.

Lemma own_field_reach h1 h2 v name :
  agree_on h1 h2 v -> agree_on h1 h2 (own_field h1 v name).
Proof.
  intros H. destruct v as [| | | | |l];
    try (apply agree_on_not_ref; intros; discriminate).
  simpl. destruct (h1 !! l) as [[props|items]|] eqn:Hl;
    try (apply agree_on_not_ref; intros; discriminate).
  destruct (props !! name) as [w|] eqn:Hw; simpl;
    [|apply agree_on_not_ref; intros; discriminate].
  intros l' Hr. apply H. by eapply reach_field.
Qed.

Lemma own_index_reach h1 h2 v n :
  agree_on h1 h2 v -> agree_on h1 h2 (own_index h1 v n).
Proof.
  intros H. destruct v as [| | | |s|l];
    try (apply agree_on_not_ref; intros; discriminate).
  - simpl. destruct (char_at s n); simpl;
      apply agree_on_not_ref; intros; discriminate.
  - simpl. destruct (h1 !! l) as [[props|items]|] eqn:Hl;
      try (apply agree_on_not_ref; intros; discriminate).
    + destruct (props !! pretty n) as [w|] eqn:Hw; simpl;
        [|apply agree_on_not_ref; intros; discriminate].
      intros l' Hr. apply H. by eapply reach_field.
    + destruct (items !! n) as [w|] eqn:Hw; simpl;
        [|apply agree_on_not_ref; intros; discriminate].
      intros l' Hr. apply H. by eapply reach_item.
Qed.

Lemma same_result_get_field h1 h2 v name :
  agree_on h1 h2 v -> same_result h1 h2 (get_field v name).
Proof.
  intros H. unfold same_result, get_field.
  destruct (is_nullish v); [done|]. simpl. by rewrite (own_field_agree h1 h2).
Qed.

Lemma same_result_bind_get_field h1 h2 v name (k : value -> JS value) :
  agree_on h1 h2 v ->
  (forall w, agree_on h1 h2 w -> same_result h1 h2 (k w)) ->
  same_result h1 h2 (let* w := get_field v name in k w).
Proof.
  intros H Hk. unfold same_result, bind, get_field.
  destruct (is_nullish v); [done|].
  rewrite (own_field_agree h1 h2 v name H).
  apply Hk. by apply own_field_reach.
Qed.

Lemma same_result_bind_get_index h1 h2 v n (k : value -> JS value) :
  agree_on h1 h2 v ->
  (forall w, agree_on h1 h2 w -> same_result h1 h2 (k w)) ->
  same_result h1 h2 (let* w := get_index v n in k w).
Proof.
  intros H Hk. unfold same_result, bind, get_index.
  destruct (is_nullish v); [done|].
  rewrite (own_index_agree h1 h2 v n H).
  apply Hk. by apply own_index_reach.
Qed.

Section Locality.

Variable StringToNumber : string -> float.
Variable ObjectToNumber : heap -> loc -> result float.

(** The conversion of an object to a number looks at the object and at
    what the object gives access to, and at nothing else. *)
Hypothesis ObjectToNumber_local :
  forall h1 h2 l, agree_on h1 h2 (VRef l) ->
                  ObjectToNumber h1 l = ObjectToNumber h2 l.

Lemma ToNumber_agree h1 h2 v :
  agree_on h1 h2 v ->
  ToNumber StringToNumber ObjectToNumber h1 v =
  ToNumber StringToNumber ObjectToNumber h2 v.
Proof.
  intros H. destruct v as [| | | | |l]; try done.
  simpl. by apply ObjectToNumber_local.
Qed.

Lemma same_result_getMethodPrice h1 h2 method :
  agree_on h1 h2 method ->
  same_result h1 h2 (getMethodPrice StringToNumber ObjectToNumber method).
Proof.
  intros H. unfold getMethodPrice.
  destruct (negb (ToBoolean method)); [done|].
  apply same_result_bind_get_field; [done|]. intros guarded _.
  destruct (negb (ToBoolean guarded)); [done|].
  apply same_result_bind_get_field; [done|]. intros zoneRates Hzs.
  apply same_result_bind_get_index; [done|]. intros zoneRate Hz.
  apply same_result_bind_get_field; [done|]. intros shippingRates Hss.
  apply same_result_bind_get_index; [done|]. intros shippingRate Hs.
  apply same_result_bind_get_field; [done|]. intros price Hp.
  apply same_result_bind_get_field; [done|]. intros centAmount Hc.
  unfold same_result, js_div.
  rewrite (ToNumber_agree h1 h2 centAmount Hc).
  by destruct (ToNumber StringToNumber ObjectToNumber h2 centAmount).
Qed.

Lemma same_result_getters name (g : value -> JS value) input h1 h2 :
  (name, g) ∈ checkoutShippingMethodGetters StringToNumber ObjectToNumber ->
  agree_on h1 h2 input ->
  same_result h1 h2 (g input).
Proof.
  intros Hg H. apply getters_cases in Hg.
  destruct Hg as [-> | [-> | [-> | [-> | [-> | ->]]]]].
  - done.
  - unfold getMethodId, get_field_opt, same_result.
    pose proof (same_result_get_field h1 h2 input "id" H) as Hf.
    by destruct (is_nullish input).
  - by apply same_result_get_field.
  - by apply same_result_get_field.
  - by apply same_result_getMethodPrice.
  - done.
Qed.

End Locality.

Lemma getMethodId_in_getters S O :
  ("getMethodId", getMethodId) ∈ checkoutShippingMethodGetters S O.
Proof. unfold checkoutShippingMethodGetters. repeat constructor. Defined.

Lemma getShippingMethods_in_getters S O :
  ("getShippingMethods", getShippingMethods) ∈ checkoutShippingMethodGetters S O.
Proof. unfold checkoutShippingMethodGetters. repeat constructor. Defined.

Lemma getMethodPrice_in_getters S O :
  ("getMethodPrice", getMethodPrice S O) ∈ checkoutShippingMethodGetters S O.
Proof. unfold checkoutShippingMethodGetters. repeat constructor. Defined.

Lemma nan_of_object_local h1 h2 l :
  agree_on h1 h2 (VRef l) -> nan_of_object h1 l = nan_of_object h2 l.
Proof. reflexivity. Defined.

(** The method of [bare_heap] gives access to its own object only, so the
    heap may differ anywhere else. *)
Lemma bare_heap_agree (o : object) :
  agree_on bare_heap (<[2%positive := o]> bare_heap) (VRef 1%positive).
Proof.
  intros l Hr.
  assert (l = 1%positive) as ->.
  { inversion Hr as [| l0 props name w l' Hl Hw Hw' | l0 items n w l' Hl]; subst.
    - done.
    - unfold bare_heap in Hl. rewrite lookup_singleton_eq in Hl.
      injection Hl as <-. apply lookup_singleton_Some in Hw as [_ <-].
      apply reach_is_ref in Hw' as [? ?]. discriminate.
    - unfold bare_heap in Hl. rewrite lookup_singleton_eq in Hl. discriminate. }
  by rewrite lookup_insert_ne.
Defined.

(** ** The getter set as a whole *)

(** C3: every getter of the set is stateless and deterministic.  A call
    writes nothing (the heap comes back as it was), and reads nothing outside
    its argument: two calls with the same input, in heaps that hold the same
    objects wherever the input gives access, return the same result (in
    particular two calls with the same input in the same heap do).  The
    conversion of an object to a number, which is the runtime's, is assumed
    to read within the object. *)
Theorem getters_stateless S O
    (HO : forall h1 h2 l, agree_on h1 h2 (VRef l) -> O h1 l = O h2 l)
    (name : string) (g : value -> JS value)
    (Hg : (name, g) ∈ checkoutShippingMethodGetters S O)
    (input : value) (h1 h2 : heap) (Hagree : agree_on h1 h2 input) :
  (g input h1).1 = (g input h2).1 /\
  (g input h1).2 = h1 /\ (g input h2).2 = h2.
Proof.
  split; [|split].
  - by apply (same_result_getters S O HO name).
  - by apply (getters_read_only S O name).
  - by apply (getters_read_only S O name).
Qed.

Lemma getters_stateless_witness :
  (getMethodId (VRef 1%positive) bare_heap).1 =
    (getMethodId (VRef 1%positive) (<[2%positive := OArr []]> bare_heap)).1 /\
  (getMethodPrice nan_of_string nan_of_object (VRef 1%positive) standard_heap).2 =
    standard_heap.
Proof.
  split.
  - exact (proj1 (getters_stateless nan_of_string nan_of_object nan_of_object_local
                    "getMethodId" getMethodId
                    (getMethodId_in_getters nan_of_string nan_of_object)
                    (VRef 1%positive) bare_heap (<[2%positive := OArr []]> bare_heap)
                    (bare_heap_agree (OArr [])))).
  - exact (proj1 (proj2 (getters_stateless nan_of_string nan_of_object
                    nan_of_object_local
                    "getMethodPrice" (getMethodPrice nan_of_string nan_of_object)
                    (getMethodPrice_in_getters nan_of_string nan_of_object)
                    (VRef 1%positive) standard_heap standard_heap
                    (agree_on_refl standard_heap (VRef 1%positive))))).
Defined.

(** C4: no getter of the set changes the response object it receives, nor
    anything else: after the call, for every input, the heap (hence the
    method or the list of methods held in it) is what it was before. *)
Theorem getters_leave_input_unchanged S O
    (name : string) (g : value -> JS value)
    (Hg : (name, g) ∈ checkoutShippingMethodGetters S O)
    (input : value) (h : heap) :
  (g input h).2 = h /\
  forall l, reach h input l -> (g input h).2 !! l = h !! l.
Proof.
  assert (H : (g input h).2 = h) by by apply (getters_read_only S O name).
  split; [done|]. intros l _. by rewrite H.
Qed.

Lemma getters_leave_input_unchanged_witness :
  (getMethodPrice nan_of_string nan_of_object (VRef 1%positive) standard_heap).2 =
    standard_heap.
Proof.
  exact (proj1 (getters_leave_input_unchanged nan_of_string nan_of_object
                  "getMethodPrice" (getMethodPrice nan_of_string nan_of_object)
                  (getMethodPrice_in_getters nan_of_string nan_of_object)
                  (VRef 1%positive) standard_heap)).
Defined.

(** ** What the getters return *)

Lemma getters_named S O name (g : value -> JS value) :
  (name, g) ∈ checkoutShippingMethodGetters S O ->
  (name = "getShippingMethods" /\ g = getShippingMethods) \/
  (name = "getMethodId" /\ g = getMethodId) \/
  (name = "getMethodName" /\ g = getMethodName) \/
  (name = "getMethodDescription" /\ g = getMethodDescription) \/
  (name = "getMethodPrice" /\ g = getMethodPrice S O) \/
  (name = "isMethodDefault" /\ g = isMethodDefault).
Proof.
  unfold checkoutShippingMethodGetters. intros H.
  repeat (apply elem_of_cons in H as [H|H]; [inversion H; subst; tauto|]).
  by apply elem_of_nil in H.
Qed.

Lemma given_primitive_or_reach h v :
  is_primitive v = true \/ exists l, v = VRef l /\ reach h v l.
Proof.
  destruct v as [| | | | |l]; try by left.
  right. exists l. split; [done | apply reach_ref].
Qed.

Lemma own_field_primitive_or_reach h v name :
  is_primitive (own_field h v name) = true \/
  exists l, own_field h v name = VRef l /\ reach h v l.
Proof.
  destruct v as [| | | | |l0]; try by left.
  simpl. destruct (h !! l0) as [[props|items]|] eqn:Hl; try by left.
  destruct (props !! name) as [w|] eqn:Hw; simpl; [|by left].
  destruct w as [| | | | |l]; try by left.
  right. exists l. split; [done|].
  eapply reach_field; [done | done | apply reach_ref].
Qed.

Lemma get_field_returns v name h w :
  (get_field v name h).1 = Return w -> w = own_field h v name.
Proof.
  unfold get_field. destruct (is_nullish v); simpl; [discriminate|].
  by intros [= <-].
Qed.

(** The list of methods is returned as it was given, a reference to the
    platform's own list and no primitive; and on [null] the guard of
    [getMethodPrice] answers, with [null], which is not a number. *)
Lemma getters_return_counterexample :
  ((getShippingMethods (VRef 1%positive) methods_heap).1 = Return (VRef 1%positive) /\
   is_primitive (VRef 1%positive) = false /\
   methods_heap !! 1%positive = Some (OArr [VRef 2%positive]) /\
   (getShippingMethods (VRef 1%positive) methods_heap).2 = methods_heap) /\
  (exists v, (getMethodPrice nan_of_string nan_of_object VNull ∅).1 = Return v /\
             is_number v = false).
Proof. split; [done | by exists VNull]. Qed.

(** C5, amended: every getter returns a primitive or a part of the
    platform object it was given, and builds no record (the heap is as it
    was): [getShippingMethods] returns the list it was given, the same
    reference; [getMethodId], [getMethodName] and [getMethodDescription]
    return what the field holds ([undefined] when there is none);
    [isMethodDefault] returns [false]; and in particular [getMethodPrice],
    whose declared result type is number, returns for every input on which
    it returns at all [null] if its guard [!method || !method.zoneRates]
    holds and a number otherwise. *)
Theorem getters_return_kinds S O (name : string) (g : value -> JS value)
    (Hg : (name, g) ∈ checkoutShippingMethodGetters S O)
    (input : value) (h : heap) (v : value)
    (Hret : (g input h).1 = Return v) :
  (is_primitive v = true \/ exists l, v = VRef l /\ reach h input l) /\
  (g input h).2 = h /\
  (name = "getShippingMethods" -> v = input) /\
  (name = "getMethodId" ->
     v = if is_nullish input then VUndefined else own_field h input "id") /\
  (name = "getMethodName" -> v = own_field h input "name") /\
  (name = "getMethodDescription" -> v = own_field h input "description") /\
  (name = "getMethodPrice" ->
     if price_guard h input then v = VNull else is_number v = true) /\
  (name = "isMethodDefault" -> v = VBool false).
Proof.
  assert (Hheap : (g input h).2 = h) by by apply (getters_read_only S O name).
  apply getters_named in Hg.
  destruct Hg as [[-> ->] | [[-> ->] | [[-> ->] | [[-> ->] | [[-> ->] | [-> ->]]]]]];
    repeat apply conj; try done; try (intros _).
  - injection Hret as <-. apply given_primitive_or_reach.
  - by injection Hret as <-.
  - unfold getMethodId, get_field_opt in Hret.
    destruct (is_nullish input); [injection Hret as <-; by left|].
    apply get_field_returns in Hret as ->. apply own_field_primitive_or_reach.
  - unfold getMethodId, get_field_opt in Hret.
    destruct (is_nullish input); [by injection Hret as <-|].
    by apply get_field_returns in Hret.
  - apply get_field_returns in Hret as ->. apply own_field_primitive_or_reach.
  - by apply get_field_returns in Hret.
  - apply get_field_returns in Hret as ->. apply own_field_primitive_or_reach.
  - by apply get_field_returns in Hret.
  - apply getMethodPrice_returns in Hret.
    destruct (price_guard h input); [by subst; left|].
    destruct v; try discriminate. by left.
  - by apply getMethodPrice_returns in Hret.
  - injection Hret as <-. by left.
  - by injection Hret as <-.
Qed.

Lemma getters_return_kinds_witness :
  ((getMethodPrice nan_of_string nan_of_object (VRef 1%positive) standard_heap).1 =
     Return (VNum 10) /\
   is_number (VNum 10) = true) /\
  ((getMethodPrice nan_of_string nan_of_object VNull ∅).1 = Return VNull /\
   VNull = VNull) /\
  ((getShippingMethods (VRef 1%positive) methods_heap).1 = Return (VRef 1%positive) /\
   VRef 1%positive = VRef 1%positive).
Proof.
  split; [|split]; (split; [reflexivity|]).
  - exact (proj1 (proj2 (proj2 (proj2 (proj2 (proj2 (proj2
             (getters_return_kinds nan_of_string nan_of_object
                "getMethodPrice" (getMethodPrice nan_of_string nan_of_object)
                (getMethodPrice_in_getters nan_of_string nan_of_object)
                (VRef 1%positive) standard_heap (VNum 10) eq_refl)))))))
           eq_refl).
  - exact (proj1 (proj2 (proj2 (proj2 (proj2 (proj2 (proj2
             (getters_return_kinds nan_of_string nan_of_object
                "getMethodPrice" (getMethodPrice nan_of_string nan_of_object)
                (getMethodPrice_in_getters nan_of_string nan_of_object)
                VNull ∅ VNull eq_refl)))))))
           eq_refl).
  - exact (proj1 (proj2 (proj2
             (getters_return_kinds nan_of_string nan_of_object
                "getShippingMethods" getShippingMethods
                (getShippingMethods_in_getters nan_of_string nan_of_object)
                (VRef 1%positive) methods_heap (VRef 1%positive) eq_refl)))
           eq_refl).
Defined.

(** * Further properties of the shipping-method getters *)

Lemma get_field_read v name h :
  is_nullish v = false -> get_field v name h = (Return (own_field h v name), h).
Proof. intros H. unfold get_field. by rewrite H. Qed.

Lemma get_index_read v n h :
  is_nullish v = false -> get_index v n h = (Return (own_index h v n), h).
Proof. intros H. unfold get_index. by rewrite H. Qed.

Lemma get_index_throws v n h :
  is_nullish v = true -> get_index v n h = (Throw TypeError, h).
Proof. intros H. unfold get_index. by rewrite H. Qed.

Lemma price_guard_false h method :
  price_guard h method = false ->
  ToBoolean method = true /\ ToBoolean (own_field h method "zoneRates") = true.
Proof.
  unfold price_guard. intros H. apply orb_false_elim in H as [H1 H2].
  split; by apply negb_false_iff.
Qed.

(** Past the guard, the outcome in one piece: a [TypeError] when the path is
    broken, the division otherwise. *)
Lemma getMethodPrice_past_guard S O method h :
  price_guard h method = false ->
  getMethodPrice S O method h =
    if path_broken h method then (Throw TypeError, h)
    else js_div S O (own_field h (first_price h method) "centAmount") (VNum 100) h.
Proof.
  intros Hg. apply price_guard_false in Hg as [Hm Hz].
  rewrite (getMethodPrice_guard_passed S O method _ h Hm
             (get_field_read _ _ _ (truthy_not_nullish _ Hm)) Hz).
  unfold path_broken, first_price, first_shippingRate, first_shippingRates,
    first_zoneRate.
  rewrite (bind_Return _ _ _ _ _
             (get_index_read _ 0 h (truthy_not_nullish _ Hz))).
  destruct (is_nullish (own_index h (own_field h method "zoneRates") 0)) eqn:H1;
    simpl.
  { by rewrite (bind_Throw _ _ _ _ _ (get_field_nullish _ _ h H1)). }
  rewrite (bind_Return _ _ _ _ _ (get_field_read _ _ h H1)).
  match goal with |- context [is_nullish ?v || _ || _] =>
    destruct (is_nullish v) eqn:H2 end; simpl.
  { by rewrite (bind_Throw _ _ _ _ _ (get_index_throws _ _ h H2)). }
  rewrite (bind_Return _ _ _ _ _ (get_index_read _ _ h H2)).
  match goal with |- context [is_nullish ?v || _] =>
    destruct (is_nullish v) eqn:H3 end; simpl.
  { by rewrite (bind_Throw _ _ _ _ _ (get_field_nullish _ _ h H3)). }
  rewrite (bind_Return _ _ _ _ _ (get_field_read _ _ h H3)).
  match goal with |- context [if is_nullish ?v then _ else _] =>
    destruct (is_nullish v) eqn:H4 end.
  { by rewrite (bind_Throw _ _ _ _ _ (get_field_nullish _ _ h H4)). }
  by rewrite (bind_Return _ _ _ _ _ (get_field_read _ _ h H4)).
Qed.

Lemma getMethodPrice_guarded S O method h :
  price_guard h method = true -> getMethodPrice S O method h = (Return VNull, h).
Proof.
  unfold price_guard. intros Hg.
  destruct (ToBoolean method) eqn:Hm.
  - simpl in Hg. apply negb_true_iff in Hg.
    by apply (getMethodPrice_falsy_zoneRates S O method
                (own_field h method "zoneRates") h Hm
                (get_field_read _ _ _ (truthy_not_nullish _ Hm))).
  - by apply getMethodPrice_falsy.
Qed.

Lemma price_guard_primitive h method :
  (forall l, method <> VRef l) -> price_guard h method = true.
Proof.
  intros H. unfold price_guard.
  destruct method as [| | | | |l0]; simpl; try done; try by rewrite orb_true_r.
  by destruct (H l0).
Qed.

(** X1: whenever the guard [!method || !method.zoneRates] holds,
    [getMethodPrice] returns [null] and throws nothing; the guard holds in
    particular for every method that is not an object or an array (a
    number, a string, a boolean), since such a value has no [zoneRates]. *)
Theorem getMethodPrice_guard_null S O (method : value) (h : heap)
    (Hg : price_guard h method = true \/ forall l, method <> VRef l) :
  getMethodPrice S O method h = (Return VNull, h).
Proof.
  apply getMethodPrice_guarded.
  destruct Hg as [Hg | Hprim]; [done | by apply price_guard_primitive].
Qed.

Lemma getMethodPrice_guard_null_witness :
  getMethodPrice nan_of_string nan_of_object (VStr "standard") standard_heap =
    (Return VNull, standard_heap) /\
  getMethodPrice nan_of_string nan_of_object (VRef 1%positive) bare_heap =
    (Return VNull, bare_heap).
Proof.
  split.
  - apply (getMethodPrice_guard_null nan_of_string nan_of_object
             (VStr "standard") standard_heap).
    right. intros l. discriminate.
  - apply (getMethodPrice_guard_null nan_of_string nan_of_object
             (VRef 1%positive) bare_heap).
    left. reflexivity.
Defined.

Lemma js_div_number S O a h x :
  ToNumber S O h a = Return x ->
  js_div S O a (VNum 100) h = (Return (VNum (x / 100)), h).
Proof. intros H. unfold js_div. by rewrite H. Qed.

Lemma js_div_throws S O a h e :
  ToNumber S O h a = Throw e ->
  js_div S O a (VNum 100) h = (Throw TypeError, h).
Proof. intros H. unfold js_div. rewrite H. by destruct e. Qed.

(** X2: [getMethodPrice] throws exactly when its guard lets the method
    through and either one of [zoneRates[0]], [.shippingRates],
    [.shippingRates[0]], [.price] is [null] or [undefined], or the
    conversion of [centAmount] to a number throws (as it does for an object
    without a usable [valueOf] or [toString]); what it throws is a
    [TypeError], and the heap is left as it was. *)
Theorem getMethodPrice_throws_iff S O (method : value) (h : heap) :
  ((exists e, (getMethodPrice S O method h).1 = Throw e) <->
   price_guard h method = false /\
   (path_broken h method = true \/
    exists e, ToNumber S O h (own_field h (first_price h method) "centAmount")
              = Throw e)) /\
  (forall e, (getMethodPrice S O method h).1 = Throw e ->
             getMethodPrice S O method h = (Throw TypeError, h)).
Proof.
  destruct (price_guard h method) eqn:Hg.
  - rewrite (getMethodPrice_guarded S O method h Hg). simpl.
    split; [split; [by intros [e ?] | by intros [? _]] | discriminate].
  - rewrite (getMethodPrice_past_guard S O method h Hg).
    destruct (path_broken h method); simpl.
    + split; [split; [by intros _; split; [|left] | by exists TypeError] | done].
    + destruct (ToNumber S O h (own_field h (first_price h method) "centAmount"))
        as [x|e0] eqn:Hnum.
      * rewrite (js_div_number S O _ h x Hnum). simpl.
        split; [|discriminate].
        split; [by intros [e ?] | by intros [_ [? | [e ?]]]].
      * rewrite (js_div_throws S O _ h e0 Hnum). simpl.
        split; [|done].
        split; [intros _; split; [done | right; by exists e0] | by exists TypeError].
Qed.

(** X3: when the guard lets the method through, the path to the price is
    there and the conversion of [centAmount] to a number gives [f],
    [getMethodPrice] returns the number [f / 100]: it neither throws nor
    returns [null]. *)
Theorem getMethodPrice_quotient S O (method : value) (h : heap) (f : float)
    (Hg : price_guard h method = false) (Hpath : path_broken h method = false)
    (Hnum : ToNumber S O h (own_field h (first_price h method) "centAmount")
            = Return f) :
  getMethodPrice S O method h = (Return (VNum (f / 100)), h).
Proof.
  rewrite (getMethodPrice_past_guard S O method h Hg). rewrite Hpath.
  by apply js_div_number.
Qed.

Lemma getMethodPrice_quotient_witness :
  getMethodPrice nan_of_string nan_of_object (VRef 1%positive) standard_heap =
    (Return (VNum 10), standard_heap).
Proof.
  exact (getMethodPrice_quotient nan_of_string nan_of_object
           (VRef 1%positive) standard_heap 1000 eq_refl eq_refl eq_refl).
Defined.

(** X4: a price object without [centAmount] makes [getMethodPrice] return
    [NaN], and a [centAmount] of [null] makes it return [0]: in neither case
    does it throw or return [null]. *)
Theorem getMethodPrice_missing_centAmount S O (method : value) (h : heap)
    (Hg : price_guard h method = false) (Hpath : path_broken h method = false)
    (Hc : is_nullish (own_field h (first_price h method) "centAmount") = true) :
  getMethodPrice S O method h =
    (Return (VNum (match own_field h (first_price h method) "centAmount" with
                   | VNull => 0
                   | _ => nan
                   end)), h).
Proof.
  rewrite (getMethodPrice_past_guard S O method h Hg). rewrite Hpath.
  by destruct (own_field h (first_price h method) "centAmount").
Qed.

Lemma getMethodPrice_missing_centAmount_witness :
  getMethodPrice nan_of_string nan_of_object (VRef 1%positive) no_amount_heap =
    (Return (VNum nan), no_amount_heap).
Proof.
  exact (getMethodPrice_missing_centAmount nan_of_string nan_of_object
           (VRef 1%positive) no_amount_heap eq_refl eq_refl eq_refl).
Defined.

(** ** Only the first rates count *)

Lemma same_heads_own_field h1 h2 v name :
  same_heads h1 h2 -> own_field h1 v name = own_field h2 v name.
Proof.
  intros H. destruct v as [| | | | |l]; try done.
  simpl. specialize (H l).
  destruct (h1 !! l) as [[props|xs]|], (h2 !! l) as [[props'|ys]|];
    try done; by simplify_eq.
Qed.

Lemma same_heads_own_index h1 h2 v :
  same_heads h1 h2 -> own_index h1 v 0 = own_index h2 v 0.
Proof.
  intros H. destruct v as [| | | | |l]; try done.
  simpl. specialize (H l).
  destruct (h1 !! l) as [[props|xs]|], (h2 !! l) as [[props'|ys]|];
    try done; try by simplify_eq.
  by rewrite <- !head_lookup, H.
Qed.

Lemma same_heads_bind_get_field h1 h2 v name (k : value -> JS value) :
  same_heads h1 h2 ->
  (forall w, same_result h1 h2 (k w)) ->
  same_result h1 h2 (let* w := get_field v name in k w).
Proof.
  intros H Hk. unfold same_result, bind, get_field.
  destruct (is_nullish v); [done|].
  rewrite (same_heads_own_field h1 h2 v name H). apply Hk.
Qed.

Lemma same_heads_bind_get_index h1 h2 v (k : value -> JS value) :
  same_heads h1 h2 ->
  (forall w, same_result h1 h2 (k w)) ->
  same_result h1 h2 (let* w := get_index v 0 in k w).
Proof.
  intros H Hk. unfold same_result, bind, get_index.
  destruct (is_nullish v); [done|].
  rewrite (same_heads_own_index h1 h2 v H). apply Hk.
Qed.

Lemma two_rates_same_heads : same_heads standard_heap two_rates_heap.
Proof.
  intros l. unfold two_rates_heap.
  destruct (decide (l = 2%positive)) as [-> | H2]; [done|].
  rewrite lookup_insert_ne by done.
  destruct (decide (l = 4%positive)) as [-> | H4]; [done|].
  rewrite lookup_insert_ne by done.
  by destruct (standard_heap !! l) as [[props|xs]|].
Defined.

(** X5: [getMethodPrice] looks at the first zone rate and at the first
    shipping rate only.  Two heaps whose arrays differ at most after their
    first element give the same result for every method (the conversion of
    an object to a number, the runtime's, is taken to answer alike in
    both). *)
Theorem getMethodPrice_first_rates_only S O (h1 h2 : heap) (method : value)
    (Hheads : same_heads h1 h2)
    (HO : forall l, O h1 l = O h2 l) :
  (getMethodPrice S O method h1).1 = (getMethodPrice S O method h2).1.
Proof.
  change (same_result h1 h2 (getMethodPrice S O method)).
  unfold getMethodPrice.
  destruct (negb (ToBoolean method)); [done|].
  apply same_heads_bind_get_field; [done|]. intros guarded.
  destruct (negb (ToBoolean guarded)); [done|].
  apply same_heads_bind_get_field; [done|]. intros zoneRates.
  apply same_heads_bind_get_index; [done|]. intros zoneRate.
  apply same_heads_bind_get_field; [done|]. intros shippingRates.
  apply same_heads_bind_get_index; [done|]. intros shippingRate.
  apply same_heads_bind_get_field; [done|]. intros price.
  apply same_heads_bind_get_field; [done|]. intros centAmount.
  unfold same_result, js_div.
  destruct centAmount as [| |b| | |l]; try done.
  - by destruct b.
  - simpl. rewrite HO. by destruct (O h2 l).
Qed.

Lemma getMethodPrice_first_rates_only_witness :
  (getMethodPrice nan_of_string nan_of_object (VRef 1%positive) standard_heap).1 =
  (getMethodPrice nan_of_string nan_of_object (VRef 1%positive) two_rates_heap).1.
Proof.
  exact (getMethodPrice_first_rates_only nan_of_string nan_of_object
           standard_heap two_rates_heap (VRef 1%positive)
           two_rates_same_heads (fun l => eq_refl)).
Defined.

(** ** Which getters can throw *)

Lemma get_field_throws_iff v name h :
  (exists e, (get_field v name h).1 = Throw e) <-> is_nullish v = true.
Proof.
  unfold get_field. destruct (is_nullish v); simpl.
  - split; [done | by exists TypeError].
  - split; [by intros [e ?] | done].
Qed.

(** X6: [getMethodId], [getShippingMethods] and [isMethodDefault] throw on
    no input; [getMethodName] and [getMethodDescription] throw exactly when
    the method is [null] or [undefined], and return (the field, or
    [undefined] when there is none) on every other value. *)
Theorem getters_throw_exactly (method : value) (h : heap) :
  (forall e, (getMethodId method h).1 <> Throw e) /\
  (forall e, (getShippingMethods method h).1 <> Throw e) /\
  (forall e, (isMethodDefault method h).1 <> Throw e) /\
  ((exists e, (getMethodName method h).1 = Throw e) <-> is_nullish method = true) /\
  ((exists e, (getMethodDescription method h).1 = Throw e) <->
   is_nullish method = true).
Proof.
  split; [|split; [|split; [|split]]].
  - intros e. unfold getMethodId, get_field_opt, get_field.
    by destruct (is_nullish method).
  - done.
  - done.
  - apply get_field_throws_iff.
  - apply get_field_throws_iff.
Qed.

(** * Properties of the cart getters *)

Lemma alloc_fresh (o : object) (h : heap) :
  exists l, h !! l = None /\ alloc o h = (Return (VRef l), <[l := o]> h).
Proof.
  exists (fresh (dom h)). split; [|done].
  apply not_elem_of_dom. apply is_fresh.
Qed.

(** On a line item with a price, the getter reads the amount and the
    discount and builds the record. *)
Lemma getItemPrice_run lineItem h :
  is_nullish lineItem = false ->
  is_nullish (own_field h lineItem "price") = false ->
  getItemPrice lineItem h =
    alloc (OObj {[ "regular" := own_field h (own_field h lineItem "price") "amount";
                   "special" :=
                     if ToBoolean (own_field h (own_field h lineItem "price") "discounted")
                     then own_field h (own_field h lineItem "price") "discounted"
                     else VNum 0 ]}) h.
Proof.
  intros Hl Hp. unfold getItemPrice.
  rewrite (bind_Return _ _ _ _ _ (get_field_read _ "price" h Hl)).
  rewrite (bind_Return _ _ _ _ _ (get_field_read _ "amount" h Hp)).
  rewrite (bind_Return _ _ _ _ _ (get_field_read _ "price" h Hl)).
  rewrite (bind_Return _ _ _ _ _ (get_field_read _ "discounted" h Hp)).
  destruct (ToBoolean (own_field h (own_field h lineItem "price") "discounted")).
  - erewrite bind_Return; [done|].
    rewrite (bind_Return _ _ _ _ _ (get_field_read _ "price" h Hl)).
    by apply get_field_read.
  - by erewrite bind_Return.
Qed.

Lemma getItemPrice_no_item lineItem h :
  is_nullish lineItem = true -> getItemPrice lineItem h = (Throw TypeError, h).
Proof.
  intros Hl. unfold getItemPrice.
  by rewrite (bind_Throw _ _ _ _ _ (get_field_nullish _ "price" h Hl)).
Qed.

Lemma getItemPrice_no_price lineItem h :
  is_nullish lineItem = false ->
  is_nullish (own_field h lineItem "price") = true ->
  getItemPrice lineItem h = (Throw TypeError, h).
Proof.
  intros Hl Hp. unfold getItemPrice.
  rewrite (bind_Return _ _ _ _ _ (get_field_read _ "price" h Hl)).
  by rewrite (bind_Throw _ _ _ _ _ (get_field_nullish _ "amount" h Hp)).
Qed.

Lemma record_regular h l (regular special : value) :
  own_field (<[l := OObj {[ "regular" := regular; "special" := special ]}]> h)
            (VRef l) "regular" = regular.
Proof. simpl. rewrite lookup_insert_eq. by rewrite lookup_insert_eq. Qed.

Lemma record_special h l (regular special : value) :
  own_field (<[l := OObj {[ "regular" := regular; "special" := special ]}]> h)
            (VRef l) "special" = special.
Proof.
  simpl. rewrite lookup_insert_eq.
  rewrite lookup_insert_ne by done. by rewrite lookup_singleton_eq.
Qed.

(** X7: on a line item that has a price, [getItemPrice] returns a record
    whose [regular] is [price.amount] and whose [special] is
    [price.discounted] when that is truthy and [0] otherwise: a price of
    1000 without discount gives regular 1000 and special 0. *)
Theorem getItemPrice_record (lineItem : value) (h : heap)
    (Hitem : is_nullish lineItem = false)
    (Hprice : is_nullish (own_field h lineItem "price") = false) :
  exists r h',
    getItemPrice lineItem h = (Return r, h') /\
    own_field h' r "regular" = own_field h (own_field h lineItem "price") "amount" /\
    own_field h' r "special" =
      if ToBoolean (own_field h (own_field h lineItem "price") "discounted")
      then own_field h (own_field h lineItem "price") "discounted"
      else VNum 0.
Proof.
  rewrite (getItemPrice_run lineItem h Hitem Hprice).
  destruct (alloc_fresh
              (OObj {[ "regular" := own_field h (own_field h lineItem "price") "amount";
                       "special" :=
                         if ToBoolean (own_field h (own_field h lineItem "price")
                                                 "discounted")
                         then own_field h (own_field h lineItem "price") "discounted"
                         else VNum 0 ]}) h) as (l & _ & ->).
  eexists _, _. split; [done|].
  split; [apply record_regular | apply record_special].
Qed.

Lemma getItemPrice_record_witness :
  (exists r h',
     getItemPrice (VRef 4%positive) cart_heap = (Return r, h') /\
     own_field h' r "regular" = VNum 1000 /\ own_field h' r "special" = VNum 0) /\
  (exists r h',
     getItemPrice (VRef 7%positive) cart_heap = (Return r, h') /\
     own_field h' r "regular" = VNum 1000 /\ own_field h' r "special" = VNum 800).
Proof.
  split.
  - exact (getItemPrice_record (VRef 4%positive) cart_heap eq_refl eq_refl).
  - exact (getItemPrice_record (VRef 7%positive) cart_heap eq_refl eq_refl).
Defined.

(** X8: whenever [getItemPrice] returns, the [special] of its record is
    the number [0] or a truthy value: a discount that is [null],
    [undefined], [NaN], [false] or the empty string never gets through. *)
Theorem getItemPrice_special_zero_or_truthy (lineItem : value) (h : heap)
    (r : value) (h' : heap)
    (Hret : getItemPrice lineItem h = (Return r, h')) :
  own_field h' r "special" = VNum 0 \/
  ToBoolean (own_field h' r "special") = true.
Proof.
  destruct (is_nullish lineItem) eqn:Hitem.
  { rewrite (getItemPrice_no_item _ _ Hitem) in Hret. discriminate. }
  destruct (is_nullish (own_field h lineItem "price")) eqn:Hprice.
  { rewrite (getItemPrice_no_price _ _ Hitem Hprice) in Hret. discriminate. }
  rewrite (getItemPrice_run lineItem h Hitem Hprice) in Hret.
  unfold alloc in Hret. injection Hret as <- <-.
  rewrite record_special.
  destruct (ToBoolean (own_field h (own_field h lineItem "price") "discounted"))
    eqn:Hd; [by right | by left].
Qed.

Lemma getItemPrice_special_zero_or_truthy_witness :
  own_field (getItemPrice (VRef 4%positive) cart_heap).2
            (VRef 9%positive) "special" = VNum 0 \/
  ToBoolean (own_field (getItemPrice (VRef 4%positive) cart_heap).2
                       (VRef 9%positive) "special") = true.
Proof.
  exact (getItemPrice_special_zero_or_truthy (VRef 4%positive) cart_heap
           (VRef 9%positive) (getItemPrice (VRef 4%positive) cart_heap).2 eq_refl).
Defined.

(** X9: [getItemPrice] changes no object of the heap it is given.  When it
    returns, the record is one new object, at a location the heap did not
    hold, so it is none of the objects of the response; when it throws, the
    heap is as it was. *)
Theorem getItemPrice_new_record (lineItem : value) (h : heap) :
  (forall l o, h !! l = Some o -> (getItemPrice lineItem h).2 !! l = Some o) /\
  (forall r, (getItemPrice lineItem h).1 = Return r ->
     exists l, r = VRef l /\ h !! l = None /\
               dom (getItemPrice lineItem h).2 = {[l]} ∪ dom h) /\
  (forall e, (getItemPrice lineItem h).1 = Throw e ->
     (getItemPrice lineItem h).2 = h).
Proof.
  destruct (is_nullish lineItem) eqn:Hitem.
  { rewrite (getItemPrice_no_item _ _ Hitem). simpl.
    split; [done | split; [discriminate | done]]. }
  destruct (is_nullish (own_field h lineItem "price")) eqn:Hprice.
  { rewrite (getItemPrice_no_price _ _ Hitem Hprice). simpl.
    split; [done | split; [discriminate | done]]. }
  rewrite (getItemPrice_run lineItem h Hitem Hprice).
  match goal with |- context [alloc ?o h] =>
    destruct (alloc_fresh o h) as (l & Hl & ->) end.
  simpl. split; [|split].
  - intros l' o' Hl'. rewrite lookup_insert_ne; [done|]. congruence.
  - intros r [= <-]. exists l. split; [done|]. split; [done|].
    by rewrite dom_insert_L.
  - discriminate.
Qed.

(** X10: [getItemPrice] throws exactly when the line item, or its [price],
    is [null] or [undefined]; a missing [amount] or [discounted] does not
    make it throw. *)
Theorem getItemPrice_throws_iff (lineItem : value) (h : heap) :
  (exists e, (getItemPrice lineItem h).1 = Throw e) <->
  is_nullish lineItem = true \/ is_nullish (own_field h lineItem "price") = true.
Proof.
  destruct (is_nullish lineItem) eqn:Hitem.
  { rewrite (getItemPrice_no_item _ _ Hitem). simpl.
    split; [by left | by exists TypeError]. }
  destruct (is_nullish (own_field h lineItem "price")) eqn:Hprice.
  { rewrite (getItemPrice_no_price _ _ Hitem Hprice). simpl.
    split; [by right | by exists TypeError]. }
  rewrite (getItemPrice_run lineItem h Hitem Hprice).
  split; [by intros [e ?] | by intros [?|?]].
Qed.

(** ** Reading the cart *)

Lemma nested_read_throws_iff v outer inner h :
  (exists e, ((let* w := get_field v outer in get_field w inner) h).1 = Throw e) <->
  is_nullish v = true \/ is_nullish (own_field h v outer) = true.
Proof.
  destruct (is_nullish v) eqn:Hv.
  { rewrite (bind_Throw _ _ _ _ _ (get_field_nullish _ outer h Hv)). simpl.
    split; [by left | by exists TypeError]. }
  rewrite (bind_Return _ _ _ _ _ (get_field_read _ outer h Hv)).
  rewrite get_field_throws_iff. split; [by right | by intros [?|?]].
Qed.

Lemma item_is_index h v i w :
  item_is h v i w -> get_index v i h = (Return w, h).
Proof.
  intros (l & items & -> & Hl & Hi). unfold get_index. simpl.
  rewrite Hl. by rewrite Hi.
Qed.

(** X11: [getItems] throws exactly when the cart response or its
    [results] is [null] or [undefined], [getItemName] exactly when the line
    item or its [masterVariant] is, and [getItemQty] exactly when the line
    item is; a missing [lineItems], [name] or [quantity] does not make them
    throw. *)
Theorem cart_getters_throw_exactly (v : value) (h : heap) :
  ((exists e, (getItems v h).1 = Throw e) <->
   is_nullish v = true \/ is_nullish (own_field h v "results") = true) /\
  ((exists e, (getItemName v h).1 = Throw e) <->
   is_nullish v = true \/ is_nullish (own_field h v "masterVariant") = true) /\
  ((exists e, (getItemQty v h).1 = Throw e) <-> is_nullish v = true).
Proof.
  split; [|split].
  - apply nested_read_throws_iff.
  - apply nested_read_throws_iff.
  - apply get_field_throws_iff.
Qed.

(** X12: the cart getters compose.  For a cart response
    whose [results.lineItems] is a list holding at position [i] a line item
    with [masterVariant.name] equal to [n] and [quantity] equal to [q],
    taking the item [i] of [getItems] and asking [getItemName] and
    [getItemQty] for it gives [n] and [q], and the heap is left as it
    was. *)
Theorem cart_getters_compose (h : heap) (cart results items item variant n q : value)
    (i : nat)
    (Hresults : field_is h cart "results" results)
    (Hitems : field_is h results "lineItems" items)
    (Hitem : item_is h items i item)
    (Hvariant : field_is h item "masterVariant" variant)
    (Hname : field_is h variant "name" n)
    (Hqty : field_is h item "quantity" q) :
  (let* its := getItems cart in
   let* it := get_index its i in
   getItemName it) h = (Return n, h) /\
  (let* its := getItems cart in
   let* it := get_index its i in
   getItemQty it) h = (Return q, h).
Proof.
  assert (Hget : getItems cart h = (Return items, h)).
  { unfold getItems.
    rewrite (bind_Return _ _ _ _ _ (get_field_is _ _ _ _ Hresults)).
    by apply get_field_is. }
  split.
  - rewrite (bind_Return _ _ _ _ _ Hget).
    rewrite (bind_Return _ _ _ _ _ (item_is_index _ _ _ _ Hitem)).
    unfold getItemName.
    rewrite (bind_Return _ _ _ _ _ (get_field_is _ _ _ _ Hvariant)).
    by apply get_field_is.
  - rewrite (bind_Return _ _ _ _ _ Hget).
    rewrite (bind_Return _ _ _ _ _ (item_is_index _ _ _ _ Hitem)).
    by apply get_field_is.
Qed.

Lemma cart_getters_compose_witness :
  (let* its := getItems (VRef 1%positive) in
   let* it := get_index its 0 in
   getItemName it) cart_heap = (Return (VStr "Shirt"), cart_heap) /\
  (let* its := getItems (VRef 1%positive) in
   let* it := get_index its 0 in
   getItemQty it) cart_heap = (Return (VNum 2), cart_heap).
Proof.
  apply (cart_getters_compose cart_heap (VRef 1%positive) (VRef 2%positive)
           (VRef 3%positive) (VRef 4%positive) (VRef 6%positive)
           (VStr "Shirt") (VNum 2) 0).
  - by eexists _, _.
  - by eexists _, _.
  - by eexists _, _.
  - by eexists _, _.
  - by eexists _, _.
  - by eexists _, _.
Defined.
